(** * nup_validator: the NUP (Numero Unico de Protocolo) validator

    A shallow embedding of [validate_nup] from [src/nup_validator.py]
    together with the Python primitives it calls, and the properties of the
    validator stated in the specification.

    - Python [str] values are lists of Unicode code points.
    - Python [int] values are unbounded, hence [Z].
    - A Python call either returns or raises: [result]. *)

From Stdlib Require Import String Ascii DecimalString.
From Stdlib Require Import ZArith NArith List Bool Lia.
Import ListNotations.

Local Open Scope N_scope.

(** ** Python primitives *)

Module Py.

(** A character is a Unicode code point, a string a sequence of them. *)
Definition char := N.
Definition str := list char.

(** An ASCII literal of the source, as a Python string. *)
Definition lit (s : string) : str := map N_of_ascii (list_ascii_of_string s).

Definition PERIOD : char := 46.
Definition SLASH : char := 47.
Definition HYPHEN : char := 45.
Definition NEWLINE : char := 10.

(** The two exceptions the operations used by the validator can raise. *)
Inductive exn : Set := ValueError | IndexError.

Inductive result (A : Type) : Type :=
| Return (a : A)
| Raise (e : exn).
Arguments Return {A} a.
Arguments Raise {A} e.

Definition bind {A B} (m : result A) (f : A -> result B) : result B :=
  match m with
  | Return a => f a
  | Raise e => Raise e
  end.

(** [try: m except ValueError: h], followed by [k] when [m] returned. *)
Definition try_except_ValueError {A B}
    (m : result A) (h : result B) (k : A -> result B) : result B :=
  match m with
  | Return a => k a
  | Raise ValueError => h
  | Raise e => Raise e
  end.

(** *** The Unicode decimal digits

    The characters with a decimal digit value (general category Nd) of the
    Unicode Character Database 14.0, as blocks [(first, size)]; inside a
    block the values run 0..9 cyclically.  Both [\d] of [re] on [str]
    patterns and [int] consult this property. *)
Definition Nd_blocks : list (N * N) :=
  [ (48, 10); (1632, 10); (1776, 10); (1984, 10); (2406, 10); (2534, 10);
    (2662, 10); (2790, 10); (2918, 10); (3046, 10); (3174, 10); (3302, 10);
    (3430, 10); (3558, 10); (3664, 10); (3792, 10); (3872, 10); (4160, 10);
    (4240, 10); (6112, 10); (6160, 10); (6470, 10); (6608, 10); (6784, 10);
    (6800, 10); (6992, 10); (7088, 10); (7232, 10); (7248, 10); (42528, 10);
    (43216, 10); (43264, 10); (43472, 10); (43504, 10); (43600, 10);
    (44016, 10); (65296, 10); (66720, 10); (68912, 10); (69734, 10);
    (69872, 10); (69942, 10); (70096, 10); (70384, 10); (70736, 10);
    (70864, 10); (71248, 10); (71360, 10); (71472, 10); (71904, 10);
    (72016, 10); (72784, 10); (73040, 10); (73120, 10); (92768, 10);
    (92864, 10); (93008, 10); (120782, 50); (123200, 10); (123632, 10);
    (125264, 10); (130032, 10) ].

Definition in_block (c : char) (b : N * N) : bool :=
  (fst b <=? c) && (c <? fst b + snd b).

(** The decimal digit value of a character, if it has one. *)
Definition to_decimal (c : char) : option Z :=
  match find (in_block c) Nd_blocks with
  | Some b => Some (Z.of_N ((c - fst b) mod 10))
  | None => None
  end.

Definition is_decimal (c : char) : bool :=
  match to_decimal c with Some _ => true | None => false end.

(** *** [int(s)] on strings

    Base-10 parse of a string of decimal digits; anything else raises
    [ValueError].  This is [int] exactly on one-character strings and on
    non-empty strings of decimal digits, the only arguments the validator
    passes (see [int_single] and [int_digits]); the sign, underscore and
    surrounding-whitespace forms of Python's [int] are not modelled. *)
Fixpoint int_from (acc : Z) (s : str) : result Z :=
  match s with
  | [] => Return acc
  | c :: s' =>
      match to_decimal c with
      | Some d => int_from (10 * acc + d) s'
      | None => Raise ValueError
      end
  end.

Definition int (s : str) : result Z :=
  match s with
  | [] => Raise ValueError
  | _ => int_from 0 s
  end.

(** [str(z)]: the decimal representation of an integer. *)
Definition str_of_int (z : Z) : str :=
  lit (NilZero.string_of_int (Z.to_int z)).

(** [c in s] for a one-character [c]. *)
Definition contains (c : char) (s : str) : bool := existsb (N.eqb c) s.

Definition str_eqb (a b : str) : bool :=
  if list_eq_dec N.eq_dec a b then true else false.

(** [s.split(sep)] for a one-character separator. *)
Fixpoint split (sep : char) (s : str) : list str :=
  match s with
  | [] => [[]]
  | c :: s' =>
      if c =? sep then [] :: split sep s'
      else match split sep s' with
           | w :: ws => (c :: w) :: ws
           | [] => [[c]]
           end
  end.

(** [s.replace(old, new)] for a one-character [old]. *)
Definition replace (old : char) (new : str) (s : str) : str :=
  flat_map (fun c => if c =? old then new else [c]) s.

(** [l[i]] on a list, for [i >= 0]. *)
Definition item {A} (l : list A) (i : nat) : result A :=
  match nth_error l i with
  | Some x => Return x
  | None => Raise IndexError
  end.

(** [s[-k]] on a string, for [k >= 1]: a one-character string. *)
Definition index_from_end (s : str) (k : nat) : result str :=
  if (length s <? k)%nat then Raise IndexError
  else match nth_error s (length s - k) with
       | Some c => Return [c]
       | None => Raise IndexError
       end.

(** The slices [s[:-k]] and [s[-k:]], for [k >= 1]; slices never raise. *)
Definition slice_to_neg (s : str) (k : nat) : str := firstn (length s - k) s.
Definition slice_from_neg (s : str) (k : nat) : str := skipn (length s - k) s.

(** [list(range(lo, hi))]. *)
Definition range (lo hi : nat) : list Z := map Z.of_nat (seq lo (hi - lo)).

(** [sum(int(digit) * weight for digit, weight in pairs)]: the generator is
    consumed from the left, starting from 0. *)
Fixpoint sum_products_from (acc : Z) (pairs : list (char * Z)) : result Z :=
  match pairs with
  | [] => Return acc
  | (digit, weight) :: rest =>
      bind (int [digit]) (fun d => sum_products_from (acc + d * weight) rest)
  end.

Definition sum_products (pairs : list (char * Z)) : result Z :=
  sum_products_from 0 pairs.

(** *** Regular expressions: the fragment of [re] the validator uses *)
Inductive regex : Type :=
| Bol                              (* ^ *)
| Eol                              (* $ *)
| Digit                            (* \d *)
| Chr (c : char)                   (* an escaped or ordinary character *)
| Rep (n : nat) (r : regex)        (* r{n} *)
| Alt (r1 r2 : regex)              (* r1|r2 *)
| Seq (r1 r2 : regex).

(** Backtracking matcher: [matches r k pos s] matches [r] at offset [pos],
    where [s] is what is left of the subject, and continues with [k].
    Without [re.MULTILINE], [$] matches at the end of the string and just
    before a newline that ends the string. *)
Fixpoint matches (r : regex) (k : nat -> str -> bool)
    (pos : nat) (s : str) {struct r} : bool :=
  match r with
  | Bol => (pos =? 0)%nat && k pos s
  | Eol =>
      match s with
      | [] => k pos s
      | [c] => (c =? NEWLINE) && k pos s
      | _ => false
      end
  | Digit =>
      match s with
      | c :: s' => is_decimal c && k (S pos) s'
      | [] => false
      end
  | Chr a =>
      match s with
      | c :: s' => (c =? a) && k (S pos) s'
      | [] => false
      end
  | Rep n r' =>
      (fix rep (n : nat) : nat -> str -> bool :=
         match n with
         | O => k
         | S n' => matches r' (rep n')
         end) n pos s
  | Alt r1 r2 => matches r1 k pos s || matches r2 k pos s
  | Seq r1 r2 => matches r1 (matches r2 k) pos s
  end.

(** [pattern.match(s)] as a truth value: a match starting at offset 0. *)
Definition re_match (r : regex) (s : str) : bool :=
  matches r (fun _ _ => true) 0%nat s.

End Py.

Import Py.

Notation "x <- m ;; k" := (bind m (fun x => k))
  (at level 61, m at next level, right associativity).

(** ** The validator *)

(** [re.compile(r'^\d{5}\.\d{6}/(\d{4}|\d{2})-\d{2}$')] *)
Definition nup_format : regex :=
  Seq Bol (Seq (Rep 5 Digit) (Seq (Chr PERIOD) (Seq (Rep 6 Digit)
  (Seq (Chr SLASH) (Seq (Alt (Rep 4 Digit) (Rep 2 Digit))
  (Seq (Chr HYPHEN) (Seq (Rep 2 Digit) Eol))))))).

Definition weights_dv1 : list Z := range 2 17.
Definition weights_dv2 : list Z := range 2 18.

(** Lines 96-105 and 120-128: from the remainder mod 11 of a weighted sum
    to a check digit. *)
Definition dv_result (weighted_sum : Z) : Z :=
  let remainder := (weighted_sum mod 11)%Z in
  let dv := if (remainder =? 0)%Z then 1%Z else (11 - remainder)%Z in
  if (dv >=? 10)%Z then 0%Z else dv.

(** Lines 73-74, the body of the [try]. *)
Definition extract_dvs (number : str) : result (Z * Z) :=
  c1 <- index_from_end number 2 ;;
  dv1 <- int c1 ;;
  c2 <- index_from_end number 1 ;;
  dv2 <- int c2 ;;
  Return (dv1, dv2).

(** Lines 80-87: the payload the check digits are computed over. *)
Definition nup_treaty_of (number : str) : result str :=
  let nup_treaty :=
    slice_to_neg
      (replace HYPHEN [] (replace SLASH [] (replace PERIOD [] number))) 2 in
  after_slash <- item (split SLASH number) 1 ;;
  nup_year <- item (split HYPHEN after_slash) 0 ;;
  abbreviate <-
    (if (length nup_year =? 4)%nat
     then y <- int nup_year ;; Return (y <=? 1999)%Z
     else Return false) ;;
  if abbreviate then
    let abbreviated_year := slice_from_neg nup_year 2 in
    Return (slice_to_neg nup_treaty 4 ++ abbreviated_year)
  else Return nup_treaty.

(** Lines 89-135: both check digits against the extracted ones. *)
Definition check_digits (number : str) (dv1 dv2 : Z) : result bool :=
  nup_treaty <- nup_treaty_of number ;;
  let nup_inverted := rev nup_treaty in
  weighted_sum_dv1 <- sum_products (combine nup_inverted weights_dv1) ;;
  let dv1_result := dv_result weighted_sum_dv1 in
  if negb (dv1_result =? dv1)%Z then Return false else
  let nup_inverted_with_dv1 := str_of_int dv1_result ++ nup_inverted in
  weighted_sum_dv2 <-
    sum_products (combine nup_inverted_with_dv1 weights_dv2) ;;
  let dv2_result := dv_result weighted_sum_dv2 in
  if negb (dv2_result =? dv2)%Z then Return false else
  Return true.

(** Lines 65-135: the format check, the extraction and the checksum. *)
Definition check_format_and_digits (number : str) : result bool :=
  if negb (re_match nup_format number) then Return false else
  try_except_ValueError (extract_dvs number) (Return false)
    (fun dvs => check_digits number (fst dvs) (snd dvs)).

(** Line 57: [any(char in number for char in [".", "/", "-"])]. *)
Definition has_separator (number : str) : bool :=
  existsb (fun char => contains char number) [PERIOD; SLASH; HYPHEN].

(** Line 62: ["/" in number and len(number.split("/")[0]) < 11]. *)
Definition short_prefix (number : str) : result bool :=
  if contains SLASH number
  then prefix <- item (split SLASH number) 0 ;;
       Return (length prefix <? 11)%nat
  else Return false.

Definition validate_nup (number : str) : result bool :=
  if str_eqb number (lit "S/N") then Return true else
  if negb (has_separator number) then Return false else
  short <- short_prefix number ;;
  if short then Return false else
  check_format_and_digits number.

(** [validate_nup] without the prefix-length test of line 62. *)
Definition validate_nup_without_prefix_check (number : str) : result bool :=
  if str_eqb number (lit "S/N") then Return true else
  if negb (has_separator number) then Return false else
  check_format_and_digits number.

(** Fullwidth forms of the ASCII digits of a string (U+FF10..U+FF19). *)
Definition fullwidth (s : str) : str :=
  map (fun c => if (48 <=? c) && (c <=? 57) then c + 65248 else c) s.

(** ** What the specification says, in its own words *)

(** The numeric value of a decimal digit character. *)
Definition digit_value (c : char) : Z :=
  match to_decimal c with Some d => d | None => 0%Z end.

(** The numeric value of a string of decimal digits. *)
Definition number_value (s : str) : Z :=
  fold_left (fun acc c => (10 * acc + digit_value c)%Z) s 0%Z.

(** Exactly [n] decimal digits. *)
Definition digits (n : nat) (s : str) : Prop :=
  length s = n /\ forallb is_decimal s = true.

(** The identifier assembled from its four fields. *)
Definition assemble (unit_code sequence year dvs : str) : str :=
  unit_code ++ PERIOD :: sequence ++ SLASH :: year ++ HYPHEN :: dvs.

(** Step 4: the whole string is 5 digits, a period, 6 digits, a slash, a
    4-digit or 2-digit year, a hyphen and 2 digits. *)
Definition full_format (s : str) : Prop :=
  exists u q y d,
    s = assemble u q y d /\ digits 5 u /\ digits 6 q /\
    (digits 4 y \/ digits 2 y) /\ digits 2 d.

(** Steps 6-7: the payload, a 4-digit year of value at most 1999 abbreviated
    to its last two digits. *)
Definition abbreviated (year : str) : str :=
  if ((length year =? 4)%nat && (number_value year <=? 1999)%Z)%bool
  then skipn 2 year else year.

Definition payload (unit_code sequence year : str) : str :=
  unit_code ++ sequence ++ abbreviated year.

(** Digits weighted [w], [w + 1], [w + 2], ... and summed. *)
Fixpoint weighted (w : Z) (ds : list Z) : Z :=
  match ds with
  | [] => 0
  | d :: ds' => d * w + weighted (w + 1) ds'
  end.

(** Remainder 0 gives 1, otherwise 11 minus the remainder; 10 or more
    gives 0. *)
Definition candidate (total : Z) : Z :=
  let r := (total mod 11)%Z in
  let c := if (r =? 0)%Z then 1%Z else (11 - r)%Z in
  if (10 <=? c)%Z then 0%Z else c.

Definition expected_dv1 (p : str) : Z :=
  candidate (weighted 2 (map digit_value (rev p))).

Definition expected_dv2 (p : str) : Z :=
  candidate (weighted 2 (expected_dv1 p :: map digit_value (rev p))).

(** An identifier in the full format whose two trailing digits are the
    expected check digits of its payload. *)
Definition well_checked (s : str) : Prop :=
  exists u q y d1 d2,
    s = assemble u q y [d1; d2] /\ digits 5 u /\ digits 6 q /\
    (digits 4 y \/ digits 2 y) /\ digits 2 [d1; d2] /\
    digit_value d1 = expected_dv1 (payload u q y) /\
    digit_value d2 = expected_dv2 (payload u q y).

(** ** The rest of the module *)

(** [validate_nup] with neither the separator test of line 57 nor the
    prefix-length test of line 62. *)
Definition validate_nup_without_prechecks (number : str) : result bool :=
  if str_eqb number (lit "S/N") then Return true else
  check_format_and_digits number.





(** ** Auxiliary definitions of the proofs *)

(** [n] decimal digits off the front of a string, and what is left. *)
Fixpoint take_digits (n : nat) (s : str) : option (str * str) :=
  match n, s with
  | O, _ => Some ([], s)
  | S n', c :: s' =>
      if is_decimal c then
        match take_digits n' s' with
        | Some (ds, rest) => Some (c :: ds, rest)
        | None => None
        end
      else None
  | S _, [] => None
  end.

(** The products [zip] pairs up, summed. *)
Fixpoint dot (ds ws : list Z) : Z :=
  match ds, ws with
  | d :: ds', w :: ws' => d * w + dot ds' ws'
  | _, _ => 0
  end.

(** The three [replace] calls of line 80. *)
Definition strip (s : str) : str :=
  replace HYPHEN [] (replace SLASH [] (replace PERIOD [] s)).

(** What the two comparisons of lines 108 and 131 decide. *)
Definition verdict (u q y : str) (d1 d2 : char) : bool :=
  ((expected_dv1 (payload u q y) =? digit_value d1)%Z &&
   (expected_dv2 (payload u q y) =? digit_value d2)%Z)%bool.

(** Every run of the validator is one of these four. *)
Inductive run (s : str) : result bool -> Prop :=
| run_SN : s = lit "S/N" -> run s (Return true)
| run_no_match :
    s <> lit "S/N" -> re_match nup_format s = false -> run s (Return false)
| run_newline u q y d1 d2 :
    s = assemble u q y ([d1; d2] ++ [NEWLINE]) ->
    digits 5 u -> digits 6 q -> digits 4 y \/ digits 2 y ->
    digits 2 [d1; d2] -> run s (Return false)
| run_checked u q y d1 d2 :
    s = assemble u q y [d1; d2] ->
    digits 5 u -> digits 6 q -> digits 4 y \/ digits 2 y ->
    digits 2 [d1; d2] -> run s (Return (verdict u q y d1 d2)).

(** ** Decimal digits *)

Lemma to_decimal_range c d : to_decimal c = Some d -> (0 <= d <= 9)%Z.
Proof.
  unfold to_decimal. destruct (find (in_block c) Nd_blocks) as [b|]; [|discriminate].
  intros [= <-].
  assert ((c - fst b) mod 10 < 10) by (apply N.mod_lt; discriminate).
  generalize dependent ((c - fst b) mod 10). intros; lia.
Qed.

Lemma is_decimal_value c : is_decimal c = true -> to_decimal c = Some (digit_value c).
Proof.
  unfold is_decimal, digit_value. destruct (to_decimal c); [reflexivity|discriminate].
Qed.

Lemma to_decimal_ascii c :
  48 <= c <= 57 -> to_decimal c = Some (Z.of_N c - 48)%Z.
Proof.
  intros H.
  assert (E : c = 48 \/ c = 49 \/ c = 50 \/ c = 51 \/ c = 52 \/
              c = 53 \/ c = 54 \/ c = 55 \/ c = 56 \/ c = 57) by lia.
  repeat (destruct E as [-> | E]; [reflexivity|]). subst c. reflexivity.
Qed.

Lemma decimal_not_separator c :
  is_decimal c = true ->
  c <> PERIOD /\ c <> SLASH /\ c <> HYPHEN /\ c <> NEWLINE.
Proof.
  intros H. repeat split; intros ->; discriminate H.
Qed.

(** ** Strings *)

Lemma contains_app c a b : contains c (a ++ b) = contains c a || contains c b.
Proof. apply existsb_app. Qed.

Lemma contains_cons c x s : contains c (x :: s) = (x =? c) || contains c s.
Proof. unfold contains. simpl. now rewrite N.eqb_sym. Qed.

Lemma digits_contains s c :
  forallb is_decimal s = true -> is_decimal c = false -> contains c s = false.
Proof.
  intros Hs Hc. induction s as [|x s IH]; [reflexivity|].
  simpl in Hs. apply andb_true_iff in Hs as [Hx Hs].
  rewrite contains_cons, IH by assumption.
  destruct (N.eqb_spec x c) as [->|]; [congruence|reflexivity].
Qed.

Lemma split_nonempty sep s : split sep s <> [].
Proof.
  destruct s as [|c s]; simpl; [discriminate|].
  destruct (c =? sep); [discriminate|]. destruct (split sep s); discriminate.
Qed.

Lemma split_app sep a b :
  contains sep a = false -> split sep (a ++ sep :: b) = a :: split sep b.
Proof.
  induction a as [|x a IH]; intros H.
  - simpl. now rewrite N.eqb_refl.
  - rewrite contains_cons in H. apply orb_false_iff in H as [Hx Ha].
    simpl. rewrite Hx, IH by assumption. reflexivity.
Qed.

Lemma split_whole sep a : contains sep a = false -> split sep a = [a].
Proof.
  induction a as [|x a IH]; intros H; [reflexivity|].
  rewrite contains_cons in H. apply orb_false_iff in H as [Hx Ha].
  simpl. rewrite Hx, IH by assumption. reflexivity.
Qed.

Lemma replace_app old new a b :
  replace old new (a ++ b) = replace old new a ++ replace old new b.
Proof. apply flat_map_app. Qed.

Lemma replace_absent old new a :
  contains old a = false -> replace old new a = a.
Proof.
  induction a as [|x a IH]; intros H; [reflexivity|].
  rewrite contains_cons in H. apply orb_false_iff in H as [Hx Ha].
  unfold replace in *. simpl. rewrite Hx, IH by assumption. reflexivity.
Qed.

Lemma str_eqb_eq a b : str_eqb a b = true <-> a = b.
Proof.
  unfold str_eqb. destruct (list_eq_dec N.eq_dec a b); split; congruence.
Qed.

(** ** The format pattern *)

Lemma take_digits_spec n s ds rest :
  take_digits n s = Some (ds, rest) -> s = ds ++ rest /\ digits n ds.
Proof.
  revert s ds. induction n as [|n IH]; intros s ds H.
  - injection H as <- <-. repeat split.
  - destruct s as [|c s]; simpl in H; [discriminate|].
    destruct (is_decimal c) eqn:Hc; [|discriminate].
    destruct (take_digits n s) as [[ds' r]|] eqn:E; [|discriminate].
    injection H as <- <-. destruct (IH _ _ E) as (-> & L & F).
    repeat split; simpl; [now rewrite L | now rewrite Hc, F].
Qed.

Lemma take_digits_app n ds rest :
  digits n ds -> take_digits n (ds ++ rest) = Some (ds, rest).
Proof.
  intros [L F]. subst n. induction ds as [|c ds IH]; [reflexivity|].
  simpl in F. apply andb_true_iff in F as [Hc F].
  simpl. rewrite Hc, IH by assumption. reflexivity.
Qed.

Lemma matches_Seq r1 r2 k : matches (Seq r1 r2) k = matches r1 (matches r2 k).
Proof. reflexivity. Qed.

Lemma matches_Rep_Digit n k pos s :
  matches (Rep n Digit) k pos s =
  match take_digits n s with
  | Some (_, rest) => k (n + pos)%nat rest
  | None => false
  end.
Proof.
  revert pos s. induction n as [|n IH]; intros pos s; [reflexivity|].
  change (matches (Rep (S n) Digit) k pos s)
    with (matches Digit (matches (Rep n Digit) k) pos s).
  destruct s as [|c s]; [reflexivity|].
  change (matches Digit (matches (Rep n Digit) k) pos (c :: s))
    with (is_decimal c && matches (Rep n Digit) k (S pos) s).
  cbn [take_digits].
  destruct (is_decimal c); [|reflexivity]. cbn [andb]. rewrite IH.
  destruct (take_digits n s) as [[ds r]|]; [|reflexivity].
  now rewrite Nat.add_succ_r.
Qed.

Lemma matches_Chr a k pos s :
  matches (Chr a) k pos s = true <->
  exists rest, s = a :: rest /\ k (S pos) rest = true.
Proof.
  simpl. destruct s as [|c s].
  - split; [discriminate|]. intros (r & H & _). discriminate.
  - rewrite andb_true_iff, N.eqb_eq. split.
    + intros [-> H]. eauto.
    + intros (r & [= -> ->] & H). auto.
Qed.

Lemma matches_Eol k pos s :
  matches Eol k pos s = true <->
  (s = [] \/ s = [NEWLINE]) /\ k pos s = true.
Proof.
  simpl. destruct s as [|c [|c' s]].
  - intuition.
  - rewrite andb_true_iff, N.eqb_eq. split.
    + intros [-> H]. auto.
    + intros [[H|[= ->]] K]; [discriminate|auto].
  - split; [discriminate|]. intros [[H|H] _]; discriminate.
Qed.

Lemma matches_Bol k s : matches Bol k 0%nat s = k 0%nat s.
Proof. reflexivity. Qed.

Lemma matches_Alt r1 r2 k pos s :
  matches (Alt r1 r2) k pos s = matches r1 k pos s || matches r2 k pos s.
Proof. reflexivity. Qed.

Lemma matches_Chr_hit a k pos s :
  matches (Chr a) k pos (a :: s) = k (S pos) s.
Proof. simpl. now rewrite N.eqb_refl. Qed.

(** One step of reading a successful match of the pattern backwards. *)
Ltac match_inv H :=
  first
    [ rewrite matches_Rep_Digit in H;
      let E := fresh "E" in
      match type of H with
      | context [take_digits ?n ?s] =>
          destruct (take_digits n s) as [[? ?]|] eqn:E; [|discriminate H];
          apply take_digits_spec in E; destruct E as [-> ?]
      end
    | apply matches_Chr in H; destruct H as (? & -> & H)
    | apply matches_Eol in H; destruct H as [H _] ].

(** The strings [nup_format.match] accepts: the full format, possibly
    followed by one newline. *)
Lemma nup_format_match s :
  re_match nup_format s = true <->
  exists u q y d t,
    s = assemble u q y (d ++ t) /\ digits 5 u /\ digits 6 q /\
    (digits 4 y \/ digits 2 y) /\ digits 2 d /\ (t = [] \/ t = [NEWLINE]).
Proof.
  unfold re_match, nup_format, assemble. rewrite !matches_Seq, matches_Bol.
  split.
  - intros H. do 4 match_inv H.
    rewrite matches_Alt in H. apply orb_true_iff in H as [H|H];
      do 4 match_inv H; do 5 eexists; (split; [reflexivity|]); auto 10.
  - intros (u & q & y & d & t & -> & Hu & Hq & Hy & Hd & Ht).
    rewrite matches_Rep_Digit, (take_digits_app _ _ _ Hu), matches_Chr_hit.
    rewrite matches_Rep_Digit, (take_digits_app _ _ _ Hq), matches_Chr_hit.
    rewrite matches_Alt. apply orb_true_iff.
    destruct Hy as [Hy|Hy]; [left|right];
      rewrite matches_Rep_Digit, (take_digits_app _ _ _ Hy), matches_Chr_hit;
      rewrite matches_Rep_Digit, (take_digits_app _ _ _ Hd);
      apply matches_Eol; auto.
Qed.

(** ** Indexing, slicing and parsing *)

Lemma slice_to_neg_app a b k : length b = k -> slice_to_neg (a ++ b) k = a.
Proof.
  intros <-. unfold slice_to_neg. rewrite length_app.
  replace (length a + length b - length b)%nat with (length a + 0)%nat by lia.
  rewrite firstn_app_2. simpl. apply app_nil_r.
Qed.

Lemma index_from_end_app a b c k :
  length c = k -> index_from_end (a ++ b :: c) (S k) = Return [b].
Proof.
  intros <-. unfold index_from_end. rewrite length_app. simpl length.
  replace (length a + S (length c) <? S (length c))%nat with false
    by (symmetry; apply Nat.ltb_ge; lia).
  replace (length a + S (length c) - S (length c))%nat with (length a) by lia.
  now rewrite nth_error_app2, Nat.sub_diag by lia.
Qed.

Lemma int_single c :
  int [c] =
  match to_decimal c with Some d => Return d | None => Raise ValueError end.
Proof. simpl. destruct (to_decimal c); reflexivity. Qed.

Lemma int_from_digits s acc :
  forallb is_decimal s = true ->
  int_from acc s =
  Return (fold_left (fun a c => (10 * a + digit_value c)%Z) s acc).
Proof.
  revert acc. induction s as [|c s IH]; intros acc H; [reflexivity|].
  simpl in H. apply andb_true_iff in H as [Hc H].
  simpl. rewrite (is_decimal_value _ Hc). now apply IH.
Qed.

Lemma int_digits s :
  s <> [] -> forallb is_decimal s = true -> int s = Return (number_value s).
Proof.
  intros Hs H. destruct s as [|c s]; [contradiction|].
  unfold int, number_value. now apply int_from_digits.
Qed.

Lemma sum_products_from_digits s ws acc :
  forallb is_decimal s = true ->
  sum_products_from acc (combine s ws) =
  Return (acc + dot (map digit_value s) ws)%Z.
Proof.
  revert ws acc. induction s as [|c s IH]; intros ws acc H.
  - simpl. f_equal. lia.
  - simpl in H. apply andb_true_iff in H as [Hc H].
    destruct ws as [|w ws]; [simpl; f_equal; lia|].
    cbn [combine sum_products_from map dot].
    rewrite int_single, (is_decimal_value _ Hc). cbn [bind].
    rewrite IH by assumption. f_equal. lia.
Qed.

Lemma range_cons lo hi :
  (lo < hi)%nat -> range lo hi = Z.of_nat lo :: range (S lo) hi.
Proof.
  intros H. unfold range.
  replace (hi - lo)%nat with (S (hi - S lo)) by lia. reflexivity.
Qed.

(** While the weights last, [zip] with [range(lo, hi)] weighs the digits
    [lo], [lo + 1], ... *)
Lemma dot_range ds lo hi :
  (length ds <= hi - lo)%nat ->
  dot ds (range lo hi) = weighted (Z.of_nat lo) ds.
Proof.
  revert lo. induction ds as [|d ds IH]; intros lo H; [reflexivity|].
  simpl in H. rewrite range_cons by lia. cbn [dot weighted].
  rewrite IH by lia. do 2 f_equal. lia.
Qed.

Lemma candidate_range total : (0 <= candidate total <= 9)%Z.
Proof.
  unfold candidate. pose proof (Z.mod_pos_bound total 11 ltac:(lia)).
  destruct (Z.eqb_spec (total mod 11) 0); [simpl; lia|].
  destruct (Z.leb_spec 10 (11 - total mod 11)); lia.
Qed.

Lemma dv_result_candidate total : dv_result total = candidate total.
Proof.
  unfold dv_result, candidate.
  destruct (Z.eqb_spec (total mod 11) 0); [reflexivity|].
  rewrite Z.geb_leb. reflexivity.
Qed.

Lemma str_of_int_digit z :
  (0 <= z <= 9)%Z -> str_of_int z = [Z.to_N z + 48].
Proof.
  intros H.
  assert (E : (z = 0 \/ z = 1 \/ z = 2 \/ z = 3 \/ z = 4 \/
               z = 5 \/ z = 6 \/ z = 7 \/ z = 8 \/ z = 9)%Z) by lia.
  repeat (destruct E as [-> | E]; [reflexivity|]). subst z. reflexivity.
Qed.

Lemma digit_char z :
  (0 <= z <= 9)%Z ->
  is_decimal (Z.to_N z + 48) = true /\ digit_value (Z.to_N z + 48) = z.
Proof.
  intros H. unfold is_decimal, digit_value.
  rewrite to_decimal_ascii by lia. split; [reflexivity|lia].
Qed.

(** ** The validator on a string the pattern accepts *)

Lemma forallb_skipn {A} (f : A -> bool) n l :
  forallb f l = true -> forallb f (skipn n l) = true.
Proof.
  intros H. rewrite <- (firstn_skipn n l), forallb_app in H.
  now apply andb_true_iff in H.
Qed.

Lemma abbreviated_digits y :
  digits 4 y \/ digits 2 y ->
  forallb is_decimal (abbreviated y) = true /\
  (length (abbreviated y) <= 4)%nat.
Proof.
  unfold abbreviated. intros [[L F]|[L F]]; rewrite L; cbn [Nat.eqb andb].
  - destruct (number_value y <=? 1999)%Z.
    + split; [now apply forallb_skipn | rewrite length_skipn; lia].
    + split; [assumption | lia].
  - split; [assumption | lia].
Qed.

Lemma payload_digits u q y :
  digits 5 u -> digits 6 q -> digits 4 y \/ digits 2 y ->
  forallb is_decimal (payload u q y) = true /\
  (length (payload u q y) <= 15)%nat.
Proof.
  intros [Lu Fu] [Lq Fq] Hy. destruct (abbreviated_digits y Hy) as [Fa La].
  unfold payload. rewrite !forallb_app, !length_app, Fu, Fq, Fa. split; [reflexivity|lia].
Qed.

Section Accepted.

Variables u q y d t : str.
Hypothesis Hu : digits 5 u.
Hypothesis Hq : digits 6 q.
Hypothesis Hy : digits 4 y \/ digits 2 y.
Hypothesis Hd : digits 2 d.

Local Abbreviation number := (assemble u q y (d ++ t)).

Lemma number_at_slash :
  number = (u ++ PERIOD :: q) ++ SLASH :: y ++ HYPHEN :: d ++ t.
Proof. unfold number, assemble. now rewrite <- app_assoc. Qed.

Lemma prefix_no_slash : contains SLASH (u ++ PERIOD :: q) = false.
Proof.
  destruct Hu as [_ Fu], Hq as [_ Fq].
  rewrite contains_app, contains_cons,
    (digits_contains u SLASH Fu), (digits_contains q SLASH Fq); reflexivity.
Qed.

Lemma number_not_SN : str_eqb number (lit "S/N") = false.
Proof.
  destruct (str_eqb number (lit "S/N")) eqn:E; [|reflexivity].
  apply str_eqb_eq in E. apply (f_equal (@length _)) in E.
  unfold number, assemble in E. rewrite length_app in E.
  destruct Hu as [Lu _]. simpl in E. lia.
Qed.

Lemma number_has_separator : has_separator number = true.
Proof.
  unfold has_separator, number, assemble. cbn [existsb].
  now rewrite contains_app, contains_cons, N.eqb_refl, orb_true_r.
Qed.

(** The prefix before the first slash has 12 characters, so the test of
    line 62 lets the string through. *)
Lemma number_prefix :
  item (split SLASH number) 0 = Return (u ++ PERIOD :: q) /\
  length (u ++ PERIOD :: q) = 12%nat.
Proof.
  rewrite number_at_slash, (split_app _ _ _ prefix_no_slash).
  split; [reflexivity|]. destruct Hu as [Lu _], Hq as [Lq _].
  rewrite length_app. simpl. lia.
Qed.

Lemma number_short_prefix : short_prefix number = Return false.
Proof.
  unfold short_prefix. destruct number_prefix as [E L]. rewrite E.
  cbn [bind]. rewrite L.
  destruct (contains SLASH number); reflexivity.
Qed.

Lemma number_matches : t = [] \/ t = [NEWLINE] -> re_match nup_format number = true.
Proof. intros Ht. apply nup_format_match. exists u, q, y, d, t. auto 10. Qed.

Lemma validate_nup_accepted :
  validate_nup number = check_format_and_digits number.
Proof.
  unfold validate_nup.
  now rewrite number_not_SN, number_has_separator, number_short_prefix.
Qed.

Lemma validate_nup_without_prefix_check_accepted :
  validate_nup_without_prefix_check number = check_format_and_digits number.
Proof.
  unfold validate_nup_without_prefix_check.
  now rewrite number_not_SN, number_has_separator.
Qed.

End Accepted.

(** ** Extraction of the check digits *)

Lemma assemble_snoc u q y d :
  assemble u q y d = (u ++ PERIOD :: q ++ SLASH :: y ++ [HYPHEN]) ++ d.
Proof. unfold assemble. repeat (rewrite <- app_assoc; simpl). reflexivity. Qed.

Lemma extract_dvs_last2 pre a b :
  extract_dvs (pre ++ [a; b]) =
  (dv1 <- int [a] ;; dv2 <- int [b] ;; Return (dv1, dv2)).
Proof.
  unfold extract_dvs.
  rewrite (index_from_end_app pre a [b] 1 eq_refl). cbn [bind].
  destruct (int [a]) as [v|e]; [|reflexivity]. cbn [bind].
  change (pre ++ [a; b]) with (pre ++ [a] ++ [b]). rewrite app_assoc.
  now rewrite (index_from_end_app (pre ++ [a]) b [] 0 eq_refl).
Qed.

Lemma extract_dvs_exact u q y d1 d2 :
  digits 2 [d1; d2] ->
  extract_dvs (assemble u q y [d1; d2]) =
  Return (digit_value d1, digit_value d2).
Proof.
  intros [_ F]. cbn [forallb] in F.
  apply andb_true_iff in F as [F1 F]. apply andb_true_iff in F as [F2 _].
  rewrite assemble_snoc, extract_dvs_last2, !int_single.
  now rewrite (is_decimal_value _ F1), (is_decimal_value _ F2).
Qed.

(** A newline after the check digits gets through [$] and is caught by
    the [try]: [int] of it raises [ValueError]. *)
Lemma extract_dvs_newline u q y d1 d2 :
  digits 2 [d1; d2] ->
  extract_dvs (assemble u q y ([d1; d2] ++ [NEWLINE])) = Raise ValueError.
Proof.
  intros [_ F]. cbn [forallb] in F.
  apply andb_true_iff in F as [_ F]. apply andb_true_iff in F as [F2 _].
  rewrite assemble_snoc.
  change ([d1; d2] ++ [NEWLINE]) with ([d1] ++ [d2; NEWLINE]).
  rewrite app_assoc, extract_dvs_last2, !int_single.
  now rewrite (is_decimal_value _ F2).
Qed.

Lemma digits_two d : digits 2 d -> exists d1 d2, d = [d1; d2].
Proof.
  intros [L _]. destruct d as [|d1 [|d2 [|? ?]]]; try discriminate L. eauto.
Qed.

(** ** The payload *)

Lemma strip_app a b : strip (a ++ b) = strip a ++ strip b.
Proof. unfold strip. now rewrite !replace_app. Qed.

Lemma strip_digits s : forallb is_decimal s = true -> strip s = s.
Proof.
  intros F. unfold strip.
  rewrite (replace_absent PERIOD), (replace_absent SLASH),
    (replace_absent HYPHEN); auto using digits_contains.
Qed.

Lemma strip_assemble u q y d :
  digits 5 u -> digits 6 q -> digits 4 y \/ digits 2 y -> digits 2 d ->
  strip (assemble u q y d) = (u ++ q ++ y) ++ d.
Proof.
  intros [_ Fu] [_ Fq] Hy [_ Fd].
  assert (Fy : forallb is_decimal y = true) by (destruct Hy as [[_ F]|[_ F]]; exact F).
  unfold assemble.
  change (PERIOD :: q ++ SLASH :: y ++ HYPHEN :: d)
    with ([PERIOD] ++ q ++ [SLASH] ++ y ++ [HYPHEN] ++ d).
  rewrite !strip_app.
  rewrite (strip_digits u), (strip_digits q), (strip_digits y),
    (strip_digits d) by assumption.
  cbn. now rewrite <- !app_assoc.
Qed.

Lemma year_token u q y d :
  digits 5 u -> digits 6 q -> digits 4 y \/ digits 2 y -> digits 2 d ->
  forall number, number = assemble u q y d ->
  (after_slash <- item (split SLASH number) 1 ;;
   item (split HYPHEN after_slash) 0) = Return y.
Proof.
  intros Hu Hq Hy [_ Fd] number ->.
  assert (Fy : forallb is_decimal y = true) by (destruct Hy as [[_ F]|[_ F]]; exact F).
  rewrite <- (app_nil_r d) at 1.
  rewrite (number_at_slash u q y d []), app_nil_r.
  rewrite (split_app _ _ _ (prefix_no_slash u q Hu Hq)).
  rewrite split_whole.
  - cbn [item nth_error bind].
    rewrite split_app by now apply digits_contains.
    reflexivity.
  - rewrite contains_app, contains_cons.
    rewrite !digits_contains by (assumption || reflexivity). reflexivity.
Qed.

Lemma nup_treaty_of_exact u q y d :
  digits 5 u -> digits 6 q -> digits 4 y \/ digits 2 y -> digits 2 d ->
  nup_treaty_of (assemble u q y d) = Return (payload u q y).
Proof.
  intros Hu Hq Hy Hd. unfold nup_treaty_of.
  pose proof (year_token u q y d Hu Hq Hy Hd _ eq_refl) as E.
  destruct (item (split SLASH (assemble u q y d)) 1) as [after|e];
    [|discriminate E]. cbn [bind] in E |- *. rewrite E. cbn [bind].
  fold (strip (assemble u q y d)). rewrite strip_assemble by assumption.
  rewrite slice_to_neg_app by apply Hd.
  unfold payload, abbreviated. destruct Hy as [[L F]|[L F]]; rewrite L.
  - rewrite int_digits by (assumption || (intros ->; discriminate L)).
    cbn [Nat.eqb bind andb].
    destruct (number_value y <=? 1999)%Z; [|reflexivity].
    rewrite app_assoc, slice_to_neg_app by assumption.
    unfold slice_from_neg. rewrite L. now rewrite <- app_assoc.
  - reflexivity.
Qed.

(** ** The two weighted sums *)

Lemma check_digits_spec number p dv1 dv2 :
  nup_treaty_of number = Return p ->
  forallb is_decimal p = true -> (length p <= 15)%nat ->
  check_digits number dv1 dv2 =
  Return ((expected_dv1 p =? dv1)%Z && (expected_dv2 p =? dv2)%Z).
Proof.
  intros E F L. unfold check_digits. rewrite E. cbn [bind].
  assert (Fr : forallb is_decimal (rev p) = true).
  { rewrite forallb_forall in *. intros x Hx. apply F. now apply in_rev. }
  unfold sum_products, weights_dv1, weights_dv2.
  rewrite sum_products_from_digits by assumption. cbn [bind].
  rewrite Z.add_0_l, dot_range by (rewrite length_map, length_rev; simpl; lia).
  change (Z.of_nat 2) with 2%Z.
  rewrite dv_result_candidate. fold (expected_dv1 p).
  destruct (Z.eqb_spec (expected_dv1 p) dv1) as [E1|N1]; [|reflexivity].
  cbn [negb andb].
  pose proof (candidate_range (weighted 2 (map digit_value (rev p)))) as R.
  fold (expected_dv1 p) in R.
  destruct (digit_char _ R) as [Dc Dv].
  rewrite (str_of_int_digit _ R). cbn [app].
  rewrite sum_products_from_digits by (cbn [forallb]; now rewrite Dc, Fr).
  cbn [bind map]. rewrite Dv.
  rewrite Z.add_0_l, dot_range
    by (cbn [length]; rewrite length_map, length_rev; simpl; lia).
  change (Z.of_nat 2) with 2%Z.
  rewrite dv_result_candidate.
  change (candidate (weighted 2 (expected_dv1 p :: map digit_value (rev p))))
    with (expected_dv2 p).
  destruct (expected_dv2 p =? dv2)%Z; reflexivity.
Qed.

(** ** Verdicts *)

Lemma validate_nup_exact u q y d1 d2 :
  digits 5 u -> digits 6 q -> digits 4 y \/ digits 2 y -> digits 2 [d1; d2] ->
  validate_nup (assemble u q y [d1; d2]) = Return (verdict u q y d1 d2).
Proof.
  intros Hu Hq Hy Hd.
  pose proof (validate_nup_accepted u q y [d1; d2] [] Hu Hq) as E.
  pose proof (number_matches u q y [d1; d2] [] Hu Hq Hy Hd (or_introl eq_refl))
    as M.
  cbn [app] in E, M. rewrite E. unfold check_format_and_digits. rewrite M.
  cbn [negb]. rewrite extract_dvs_exact by assumption.
  cbn [try_except_ValueError fst snd].
  destruct (payload_digits u q y Hu Hq Hy) as [F L].
  rewrite (check_digits_spec _ (payload u q y))
    by auto using nup_treaty_of_exact.
  reflexivity.
Qed.

Lemma validate_nup_newline u q y d1 d2 :
  digits 5 u -> digits 6 q -> digits 4 y \/ digits 2 y -> digits 2 [d1; d2] ->
  validate_nup (assemble u q y ([d1; d2] ++ [NEWLINE])) = Return false.
Proof.
  intros Hu Hq Hy Hd.
  rewrite (validate_nup_accepted u q y [d1; d2] [NEWLINE] Hu Hq).
  unfold check_format_and_digits.
  rewrite (number_matches u q y [d1; d2] [NEWLINE] Hu Hq Hy Hd) by now right.
  now rewrite extract_dvs_newline.
Qed.

Lemma short_prefix_returns s : exists b, short_prefix s = Return b.
Proof.
  unfold short_prefix. destruct (contains SLASH s); [|eauto].
  pose proof (split_nonempty SLASH s).
  destruct (split SLASH s) as [|w ws]; [contradiction|]. cbn. eauto.
Qed.

Lemma validate_nup_no_match s :
  s <> lit "S/N" -> re_match nup_format s = false ->
  validate_nup s = Return false /\
  validate_nup_without_prefix_check s = Return false.
Proof.
  intros Hs Hm. unfold validate_nup, validate_nup_without_prefix_check.
  destruct (str_eqb s (lit "S/N")) eqn:E; [apply str_eqb_eq in E; contradiction|].
  destruct (has_separator s); [|split; reflexivity]. cbn [negb].
  destruct (short_prefix_returns s) as [b ->]. cbn [bind].
  unfold check_format_and_digits. rewrite Hm.
  destruct b; split; reflexivity.
Qed.

Lemma validate_nup_run s : run s (validate_nup s).
Proof.
  destruct (list_eq_dec N.eq_dec s (lit "S/N")) as [->|Hs].
  { now apply run_SN. }
  destruct (re_match nup_format s) eqn:Hm.
  - apply nup_format_match in Hm
      as (u & q & y & d & t & -> & Hu & Hq & Hy & Hd & Ht).
    destruct (digits_two d Hd) as (d1 & d2 & ->).
    destruct Ht as [->| ->].
    + cbn [app]. rewrite validate_nup_exact by assumption.
      now apply run_checked.
    + rewrite validate_nup_newline by assumption.
      now apply (run_newline _ u q y d1 d2).
  - destruct (validate_nup_no_match s Hs Hm) as [-> _].
    now apply run_no_match.
Qed.

Lemma without_prefix_check_same s :
  validate_nup_without_prefix_check s = validate_nup s.
Proof.
  destruct (list_eq_dec N.eq_dec s (lit "S/N")) as [->|Hs]; [reflexivity|].
  destruct (re_match nup_format s) eqn:Hm.
  - apply nup_format_match in Hm
      as (u & q & y & d & t & -> & Hu & Hq & Hy & Hd & Ht).
    rewrite validate_nup_accepted by assumption.
    now apply validate_nup_without_prefix_check_accepted.
  - now destruct (validate_nup_no_match s Hs Hm) as [-> ->].
Qed.

Lemma full_format_length s :
  full_format s -> (length s = 20 \/ length s = 18)%nat.
Proof.
  intros (u & q & y & d & -> & [Lu _] & [Lq _] & Hy & [Ld _]).
  unfold assemble.
  repeat (rewrite length_app; cbn [length]).
  destruct Hy as [[Ly _]|[Ly _]]; [left|right]; lia.
Qed.

Lemma full_format_last s : full_format s -> is_decimal (last s 0) = true.
Proof.
  intros (u & q & y & d & -> & _ & _ & _ & Hd).
  destruct (digits_two d Hd) as (d1 & d2 & ->).
  rewrite assemble_snoc.
  change [d1; d2] with ([d1] ++ [d2]). rewrite app_assoc, last_last.
  destruct Hd as [_ F]. cbn in F.
  destruct (is_decimal d1); [|discriminate]. now destruct (is_decimal d2).
Qed.

(** ** The repository's tests *)

(** [src/tests/test_nup_validator.py], run on the model. *)
Example test_suite :
  validate_nup (lit "12345.678901/2023-94") = Return true /\
  validate_nup (lit "35041.000387/2000-19") = Return true /\
  validate_nup (lit "S/N") = Return true /\
  validate_nup (lit "12345678901202342") = Return false /\
  validate_nup (lit "12345-678901/2023-42") = Return false /\
  validate_nup (lit "12345.678901/2023-99") = Return false /\
  validate_nup (lit "12345678901") = Return false /\
  validate_nup (lit "123.678901/2023-42") = Return false.
Proof. repeat split; vm_compute; reflexivity. Qed.

(** ** The properties of the specification *)

(** C1. [validate_nup] returns true exactly on the sentinel "S/N" and on
    the strings in the full format (5 digits, period, 6 digits, slash, a
    4-digit or 2-digit year, hyphen, 2 digits) whose two trailing digits are
    the check digits of the payload: the weighted sum of the reversed
    payload, weights 2, 3, 4, ..., reduced mod 11 (0 gives 1, otherwise 11
    minus the remainder, 10 or more gives 0), and the same again with the
    first check digit in front.  The payload has a 4-digit year of value at
    most 1999 abbreviated to two digits.  A digit is a character with a
    decimal digit value. *)
Theorem validate_nup_characterised (s : str) :
  validate_nup s = Return true <-> s = lit "S/N" \/ well_checked s.
Proof.
  split.
  - intros H. destruct (validate_nup_run s) as [E|E M|u q y d1 d2|u q y d1 d2 E Hu Hq Hy Hd];
      try discriminate H.
    + now left.
    + right. injection H as V. unfold verdict in V.
      apply andb_true_iff in V as [V1 V2].
      apply Z.eqb_eq in V1, V2. exists u, q, y, d1, d2. auto 10.
  - intros [->|(u & q & y & d1 & d2 & -> & Hu & Hq & Hy & Hd & E1 & E2)].
    + reflexivity.
    + rewrite validate_nup_exact by assumption. unfold verdict.
      now rewrite <- E1, <- E2, !Z.eqb_refl.
Qed.

(** C2. [validate_nup] is total: on every string it returns a boolean and
    raises nothing; and when the parse of the two check digits fails, the
    verdict is false. *)
Theorem validate_nup_total (s : str) :
  exists b, validate_nup s = Return b /\
    (forall e, s <> lit "S/N" -> extract_dvs s = Raise e -> b = false).
Proof.
  destruct (validate_nup_run s) as [E|E M|u q y d1 d2|u q y d1 d2 E Hu Hq Hy Hd].
  - exists true. split; [reflexivity|]. intros e N. contradiction.
  - exists false. auto.
  - exists false. auto.
  - eexists. split; [reflexivity|]. intros e _ X. subst s.
    rewrite extract_dvs_exact in X by assumption. discriminate X.
Qed.

(** The newline that [$] lets through: the parse of the last character
    fails and the verdict is false. *)
Lemma validate_nup_total_witness :
  exists b, validate_nup (lit "12345.678901/2023-94" ++ [NEWLINE]) = Return b
            /\ b = false.
Proof.
  destruct (validate_nup_total (lit "12345.678901/2023-94" ++ [NEWLINE]))
    as (b & E & F).
  exists b. split; [exact E|].
  apply (F ValueError); [discriminate | reflexivity].
Defined.

(** C3. The example verdicts: "12345.678901/2023-94" and
    "35041.000387/2000-19" are valid, "12345.678901/2023-99" is not. *)
Theorem validate_nup_examples :
  validate_nup (lit "12345.678901/2023-94") = Return true /\
  validate_nup (lit "35041.000387/2000-19") = Return true /\
  validate_nup (lit "12345.678901/2023-99") = Return false.
Proof. repeat split; vm_compute; reflexivity. Qed.

(** C4. Legacy-year equivalence: with a 4-digit year of value at most 1999,
    the identifier validates exactly as the one with the year written with
    its last two digits. *)
Theorem legacy_year_equivalence (u q y d : str) :
  digits 5 u -> digits 6 q -> digits 4 y -> (number_value y <= 1999)%Z ->
  digits 2 d ->
  validate_nup (assemble u q y d) =
  validate_nup (assemble u q (slice_from_neg y 2) d).
Proof.
  intros Hu Hq Hy Hv Hd. destruct (digits_two d Hd) as (d1 & d2 & ->).
  assert (Hy2 : digits 2 (slice_from_neg y 2)).
  { destruct Hy as [L F]. unfold slice_from_neg. rewrite L. split.
    - rewrite length_skipn. lia.
    - now apply forallb_skipn. }
  rewrite !validate_nup_exact by auto.
  unfold verdict, payload, abbreviated.
  destruct Hy as [L _], Hy2 as [L2 _]. rewrite L, L2.
  apply Z.leb_le in Hv. rewrite Hv. cbn [Nat.eqb andb].
  unfold slice_from_neg. rewrite L. reflexivity.
Qed.

Lemma legacy_year_equivalence_witness :
  validate_nup (lit "12345.678901/1999-11") =
  validate_nup (lit "12345.678901/99-11").
Proof.
  apply (legacy_year_equivalence
           (lit "12345") (lit "678901") (lit "1999") (lit "11"));
    try (split; reflexivity).
  vm_compute. discriminate.
Defined.

(** C5. "12345.678901/1999-42" is rejected: over the payload with 1999
    abbreviated to 99 the check digits are not 4 and 2. *)
Theorem abbreviated_1999_rejected :
  validate_nup (lit "12345.678901/1999-42") = Return false /\
  nup_treaty_of (lit "12345.678901/1999-42") = Return (lit "1234567890199") /\
  (expected_dv1 (lit "1234567890199"), expected_dv2 (lit "1234567890199"))
    <> (4, 2)%Z.
Proof. repeat split; vm_compute; discriminate || reflexivity. Qed.

(** C6. A string other than "S/N" that validates is in the full format in
    its entirety: nothing before, nothing after, no trailing newline; it has
    20 or 18 characters and ends in a decimal digit. *)
Theorem valid_is_full_format (s : str) :
  s <> lit "S/N" -> validate_nup s = Return true ->
  full_format s /\ (length s = 20 \/ length s = 18)%nat /\
  is_decimal (last s 0) = true /\ last s 0 <> NEWLINE.
Proof.
  intros Hs H.
  destruct (validate_nup_run s) as [E|E M|u q y d1 d2|u q y d1 d2 E Hu Hq Hy Hd];
    try discriminate H; [contradiction|]. subst s.
  assert (F : full_format (assemble u q y [d1; d2]))
    by (exists u, q, y, [d1; d2]; auto).
  pose proof (full_format_last _ F) as D.
  repeat split; auto using full_format_length.
  now apply decimal_not_separator.
Qed.

Lemma valid_is_full_format_witness :
  full_format (lit "12345.678901/2023-94") /\
  (length (lit "12345.678901/2023-94") = 20 \/
   length (lit "12345.678901/2023-94") = 18)%nat /\
  is_decimal (last (lit "12345.678901/2023-94") 0) = true /\
  last (lit "12345.678901/2023-94") 0 <> NEWLINE.
Proof.
  apply (valid_is_full_format (lit "12345.678901/2023-94")).
  - discriminate.
  - vm_compute. reflexivity.
Defined.

(** C7. The prefix-length test of line 62 is redundant: a string the
    pattern accepts has 12 characters before its first slash, so the test
    lets it through; and without the test the validator returns the same
    verdict on every string. *)
Theorem prefix_check_redundant (s : str) :
  validate_nup_without_prefix_check s = validate_nup s /\
  (re_match nup_format s = true ->
   exists prefix,
     item (split SLASH s) 0 = Return prefix /\
     length prefix = 12%nat /\ (11 <= length prefix)%nat /\
     short_prefix s = Return false).
Proof.
  split; [apply without_prefix_check_same|].
  intros Hm. apply nup_format_match in Hm
    as (u & q & y & d & t & -> & Hu & Hq & Hy & Hd & Ht).
  destruct (number_prefix u q y d t Hu Hq) as [E L].
  exists (u ++ PERIOD :: q). rewrite L.
  repeat split; auto using number_short_prefix.
Qed.

Lemma prefix_check_redundant_witness :
  validate_nup_without_prefix_check (lit "12345.678901/2023-94") =
  validate_nup (lit "12345.678901/2023-94") /\
  exists prefix,
    item (split SLASH (lit "12345.678901/2023-94")) 0 = Return prefix /\
    length prefix = 12%nat /\ (11 <= length prefix)%nat /\
    short_prefix (lit "12345.678901/2023-94") = Return false.
Proof.
  destruct (prefix_check_redundant (lit "12345.678901/2023-94")) as [A B].
  split; [exact A | apply B; reflexivity].
Defined.

Lemma length_weights :
  length weights_dv1 = 15%nat /\ length weights_dv2 = 16%nat.
Proof. split; reflexivity. Qed.

(** C8. The weights never run out: on a string the pattern accepts, either
    the run ends at the [except] of line 75 (a trailing newline) before any
    payload is built, or the payload has at most 15 digits and the sequence
    with the first check digit in front at most 16, and [zip] with the
    weights 2..16 and 2..17 pairs every digit with a weight. *)
Theorem weights_never_run_out (s : str) :
  re_match nup_format s = true ->
  (extract_dvs s = Raise ValueError /\ validate_nup s = Return false /\
   last s 0 = NEWLINE)
  \/
  (exists nup_treaty weighted_sum_dv1,
     nup_treaty_of s = Return nup_treaty /\
     (length nup_treaty <= 15)%nat /\
     length (combine (rev nup_treaty) weights_dv1) = length nup_treaty /\
     sum_products (combine (rev nup_treaty) weights_dv1) =
       Return weighted_sum_dv1 /\
     let nup_inverted_with_dv1 :=
       str_of_int (dv_result weighted_sum_dv1) ++ rev nup_treaty in
     (length nup_inverted_with_dv1 <= 16)%nat /\
     length (combine nup_inverted_with_dv1 weights_dv2) =
       length nup_inverted_with_dv1).
Proof.
  intros Hm. apply nup_format_match in Hm
    as (u & q & y & d & t & -> & Hu & Hq & Hy & Hd & Ht).
  destruct (digits_two d Hd) as (d1 & d2 & ->).
  destruct Ht as [->| ->].
  - right. cbn [app]. destruct (payload_digits u q y Hu Hq Hy) as [F L].
    destruct length_weights as [W1 W2].
    exists (payload u q y), (weighted 2 (map digit_value (rev (payload u q y)))).
    split; [now apply nup_treaty_of_exact|].
    split; [assumption|].
    split; [rewrite length_combine, length_rev, W1; lia|].
    split.
    + unfold sum_products, weights_dv1.
      rewrite sum_products_from_digits.
      * rewrite Z.add_0_l, dot_range; [reflexivity|].
        rewrite length_map, length_rev. simpl. lia.
      * rewrite forallb_forall in *. intros x Hx. apply F. now apply in_rev.
    + cbv zeta. rewrite dv_result_candidate.
      rewrite str_of_int_digit by apply candidate_range.
      cbn [app]. rewrite length_combine. cbn [length].
      rewrite length_rev, W2. lia.
  - left. split; [now apply extract_dvs_newline|].
    split; [now apply validate_nup_newline|].
    rewrite assemble_snoc, app_assoc. apply last_last.
Qed.

Lemma weights_never_run_out_witness :
  exists nup_treaty weighted_sum_dv1,
    nup_treaty_of (lit "12345.678901/1999-11") = Return nup_treaty /\
    length nup_treaty = 13%nat /\
    length (combine (rev nup_treaty) weights_dv1) = length nup_treaty /\
    sum_products (combine (rev nup_treaty) weights_dv1) =
      Return weighted_sum_dv1 /\
    length (combine (str_of_int (dv_result weighted_sum_dv1) ++ rev nup_treaty)
              weights_dv2) = 14%nat.
Proof.
  destruct (weights_never_run_out (lit "12345.678901/1999-11") eq_refl)
    as [(X & _)|(p & w & E & _ & C1 & S1 & _ & C2)].
  - discriminate X.
  - exists p, w. injection E as <-. injection S1 as <-.
    repeat split; reflexivity.
Defined.

Lemma contains_In c s : contains c s = true <-> In c s.
Proof.
  unfold contains. rewrite existsb_exists. split.
  - intros (x & Hx & E). apply N.eqb_eq in E. now subst.
  - intros H. exists c. split; [assumption|apply N.eqb_refl].
Qed.

(** C9. A string with no period, no slash and no hyphen is rejected. *)
Theorem no_separator_rejected (s : str) :
  ~ In PERIOD s -> ~ In SLASH s -> ~ In HYPHEN s ->
  validate_nup s = Return false.
Proof.
  intros Hp Hs Hh. unfold validate_nup.
  destruct (str_eqb s (lit "S/N")) eqn:E.
  { apply str_eqb_eq in E. subst s. exfalso. apply Hs. cbn. auto. }
  assert (N : forall c, ~ In c s -> contains c s = false).
  { intros c Hc. destruct (contains c s) eqn:C; [|reflexivity].
    apply contains_In in C. contradiction. }
  unfold has_separator. cbn [existsb]. now rewrite !N.
Qed.

Lemma no_separator_rejected_witness :
  validate_nup (lit "12345678901") = Return false.
Proof.
  apply no_separator_rejected; cbn; intros H;
    repeat (destruct H as [H|H]; [discriminate H|]); exact H.
Defined.

(** C10. The digits need not be ASCII: written with fullwidth digits
    (U+FF10..U+FF19), every one of them outside ASCII, a valid identifier
    still matches [\d], still parses with [int], and validates. *)
Theorem non_ascii_digits_accepted :
  let s := fullwidth (lit "12345.678901/2023-94") in
  validate_nup s = Return true /\
  re_match nup_format s = true /\
  extract_dvs s = Return (9, 4)%Z /\
  forallb (fun c => implb (is_decimal c) (127 <? c)) s = true /\
  existsb is_decimal s = true.
Proof. cbv zeta. repeat split; vm_compute; reflexivity. Qed.

(** ** Further properties of the code *)

(** X1. The rule of lines 96-105 (and 120-128) depends on the weighted sum
    only through its remainder mod 11 and yields a single decimal digit:
    0 for remainder 1, 1 for the remainders 0 and 10, and [11 - r] for the
    remainders 2..9. *)
Theorem dv_result_table (weighted_sum : Z) :
  let r := (weighted_sum mod 11)%Z in
  (0 <= dv_result weighted_sum <= 9)%Z /\
  (dv_result weighted_sum = 0 <-> r = 1)%Z /\
  (dv_result weighted_sum = 1 <-> r = 0 \/ r = 10)%Z /\
  (forall k, 2 <= k <= 9 -> dv_result weighted_sum = k <-> r = 11 - k)%Z.
Proof.
  unfold dv_result. cbv zeta.
  pose proof (Z.mod_pos_bound weighted_sum 11 ltac:(lia)) as B.
  generalize dependent (weighted_sum mod 11)%Z. intros r B.
  rewrite Z.geb_leb.
  destruct (Z.eqb_spec r 0) as [->|N].
  - change (10 <=? 1)%Z with false. cbv iota.
    repeat split; intros; lia.
  - destruct (Z.leb_spec 10 (11 - r)); repeat split; intros; lia.
Qed.


(** X2. Every body in the format has exactly one pair of check-digit
    values that validates, and the pair can always be written: with the
    ASCII digits of those values the identifier is accepted. *)
Theorem check_digits_determined (u q y : str) :
  digits 5 u -> digits 6 q -> digits 4 y \/ digits 2 y ->
  exists e1 e2 : Z,
    (0 <= e1 <= 9)%Z /\ (0 <= e2 <= 9)%Z /\
    validate_nup (assemble u q y [Z.to_N e1 + 48; Z.to_N e2 + 48])
      = Return true /\
    forall d1 d2, digits 2 [d1; d2] ->
      (validate_nup (assemble u q y [d1; d2]) = Return true <->
       digit_value d1 = e1 /\ digit_value d2 = e2).
Proof.
  intros Hu Hq Hy.
  pose proof (candidate_range
    (weighted 2 (map digit_value (rev (payload u q y))))) as R1.
  pose proof (candidate_range
    (weighted 2 (expected_dv1 (payload u q y)
                 :: map digit_value (rev (payload u q y))))) as R2.
  fold (expected_dv1 (payload u q y)) in R1.
  fold (expected_dv2 (payload u q y)) in R2.
  exists (expected_dv1 (payload u q y)), (expected_dv2 (payload u q y)).
  split; [assumption|]. split; [assumption|].
  assert (V : forall d1 d2, digits 2 [d1; d2] ->
    (validate_nup (assemble u q y [d1; d2]) = Return true <->
     digit_value d1 = expected_dv1 (payload u q y) /\
     digit_value d2 = expected_dv2 (payload u q y))).
  { intros d1 d2 Hd. rewrite validate_nup_exact by assumption.
    unfold verdict. split.
    - intros [= V]. apply andb_true_iff in V as [V1 V2].
      apply Z.eqb_eq in V1, V2. auto.
    - intros [-> ->]. now rewrite !Z.eqb_refl. }
  split; [|exact V].
  destruct (digit_char _ R1) as [D1 E1], (digit_char _ R2) as [D2 E2].
  apply V; [|auto]. split; [reflexivity|]. cbn. now rewrite D1, D2.
Qed.

Lemma check_digits_determined_witness :
  exists e1 e2 : Z,
    (0 <= e1 <= 9)%Z /\ (0 <= e2 <= 9)%Z /\
    validate_nup
      (assemble (lit "12345") (lit "678901") (lit "2023")
         [Z.to_N e1 + 48; Z.to_N e2 + 48]) = Return true /\
    forall d1 d2, digits 2 [d1; d2] ->
      (validate_nup
         (assemble (lit "12345") (lit "678901") (lit "2023") [d1; d2])
         = Return true <->
       digit_value d1 = e1 /\ digit_value d2 = e2).
Proof.
  apply (check_digits_determined (lit "12345") (lit "678901") (lit "2023")).
  - split; reflexivity.
  - split; reflexivity.
  - left. split; reflexivity.
Defined.

(** X3. Both pre-checks are redundant: without the separator test of line
    57 and the prefix-length test of line 62, the sentinel test followed by
    the format check and the checksum gives the same result on every
    string. *)
Theorem prechecks_redundant (s : str) :
  validate_nup_without_prechecks s = validate_nup s.
Proof.
  unfold validate_nup_without_prechecks.
  destruct (str_eqb s (lit "S/N")) eqn:E.
  { apply str_eqb_eq in E. now subst s. }
  assert (Hs : s <> lit "S/N").
  { intros ->. discriminate E. }
  destruct (re_match nup_format s) eqn:Hm.
  - apply nup_format_match in Hm
      as (u & q & y & d & t & -> & Hu & Hq & Hy & Hd & Ht).
    now rewrite validate_nup_accepted.
  - destruct (validate_nup_no_match s Hs Hm) as [-> _].
    unfold check_format_and_digits. now rewrite Hm.
Qed.


(** X5. The [except ValueError] branch of lines 75-77 runs exactly for a
    trailing newline: on a string the pattern accepts, either the string
    ends in a newline and the parse of the check digits raises
    [ValueError], or it ends in a decimal digit and the parse returns two
    values between 0 and 9.  An [IndexError] never arises there. *)
Theorem except_branch_is_trailing_newline (s : str) :
  re_match nup_format s = true ->
  (extract_dvs s = Raise ValueError /\ last s 0 = NEWLINE)
  \/
  (exists dv1 dv2,
     extract_dvs s = Return (dv1, dv2) /\
     (0 <= dv1 <= 9)%Z /\ (0 <= dv2 <= 9)%Z /\
     is_decimal (last s 0) = true).
Proof.
  intros Hm. apply nup_format_match in Hm
    as (u & q & y & d & t & -> & Hu & Hq & Hy & Hd & Ht).
  destruct (digits_two d Hd) as (d1 & d2 & ->).
  destruct Ht as [->| ->].
  - right. cbn [app]. exists (digit_value d1), (digit_value d2).
    split; [now apply extract_dvs_exact|].
    assert (R : forall c, (0 <= digit_value c <= 9)%Z).
    { intros c. unfold digit_value. destruct (to_decimal c) eqn:E; [|lia].
      now apply (to_decimal_range c). }
    repeat split; try apply R.
    apply full_format_last. exists u, q, y, [d1; d2]. auto.
  - left. split; [now apply extract_dvs_newline|].
    rewrite assemble_snoc, app_assoc. apply last_last.
Qed.

Lemma except_branch_is_trailing_newline_witness :
  extract_dvs (lit "12345.678901/2023-94" ++ [NEWLINE]) = Raise ValueError /\
  last (lit "12345.678901/2023-94" ++ [NEWLINE]) 0 = NEWLINE.
Proof.
  destruct (except_branch_is_trailing_newline
              (lit "12345.678901/2023-94" ++ [NEWLINE]) eq_refl)
    as [H|(dv1 & dv2 & E & _)].
  - exact H.
  - discriminate E.
Defined.

(** X6. The payload of lines 80-87 on an identifier in the format: it is
    made of decimal digits only, starts with the unit code and the sequence
    number, and has 15 digits when the year is written with four digits and
    is at least 2000, and 13 digits otherwise. *)
Theorem nup_treaty_shape (u q y d : str) :
  digits 5 u -> digits 6 q -> digits 4 y \/ digits 2 y -> digits 2 d ->
  exists nup_treaty,
    nup_treaty_of (assemble u q y d) = Return nup_treaty /\
    forallb is_decimal nup_treaty = true /\
    firstn 11 nup_treaty = u ++ q /\
    length nup_treaty =
      if ((length y =? 4)%nat && (2000 <=? number_value y)%Z)%bool
      then 15%nat else 13%nat.
Proof.
  intros Hu Hq Hy Hd. exists (payload u q y).
  split; [now apply nup_treaty_of_exact|].
  split; [now apply payload_digits|].
  destruct Hu as [Lu _], Hq as [Lq _]. unfold payload, abbreviated. split.
  - rewrite app_assoc, firstn_app, length_app, Lu, Lq. cbn [Nat.sub Nat.add].
    rewrite firstn_O, app_nil_r. apply firstn_all2.
    rewrite length_app. lia.
  - rewrite !length_app, Lu, Lq.
    destruct Hy as [[Ly _]|[Ly _]]; rewrite Ly; cbn [Nat.eqb andb].
    + destruct (Z.leb_spec (number_value y) 1999),
        (Z.leb_spec 2000 (number_value y)); try lia.
      rewrite length_skipn, Ly. reflexivity.
    + rewrite Ly. reflexivity.
Qed.

Lemma nup_treaty_shape_witness :
  exists nup_treaty,
    nup_treaty_of (lit "35041.000387/2000-19") = Return nup_treaty /\
    forallb is_decimal nup_treaty = true /\
    firstn 11 nup_treaty = lit "35041" ++ lit "000387" /\
    length nup_treaty = 15%nat.
Proof.
  apply (nup_treaty_shape (lit "35041") (lit "000387") (lit "2000") (lit "19"));
    try (split; reflexivity).
  left. split; reflexivity.
Defined.

(** X7. The century of a year up to 1999 is ignored: two identifiers that
    differ only in their 4-digit years, both at most 1999 and with the same
    last two digits, get the same verdict. *)
Theorem century_ignored (u q y y' d : str) :
  digits 5 u -> digits 6 q -> digits 2 d ->
  digits 4 y -> (number_value y <= 1999)%Z ->
  digits 4 y' -> (number_value y' <= 1999)%Z ->
  slice_from_neg y 2 = slice_from_neg y' 2 ->
  validate_nup (assemble u q y d) = validate_nup (assemble u q y' d).
Proof.
  intros Hu Hq Hd Hy Hv Hy' Hv' E.
  destruct (digits_two d Hd) as (d1 & d2 & ->).
  rewrite !validate_nup_exact by auto.
  unfold verdict, payload, abbreviated.
  unfold slice_from_neg in E.
  destruct Hy as [L _], Hy' as [L' _]. rewrite L in E. rewrite L' in E.
  apply Z.leb_le in Hv, Hv'. rewrite L, L', Hv, Hv'. cbn [Nat.eqb andb].
  cbn [Nat.sub] in E. rewrite E. reflexivity.
Qed.

Lemma century_ignored_witness :
  validate_nup (lit "12345.678901/1899-11") =
  validate_nup (lit "12345.678901/1999-11").
Proof.
  apply (century_ignored (lit "12345") (lit "678901") (lit "1899")
           (lit "1999") (lit "11"));
    try (split; reflexivity); try (vm_compute; discriminate).
Defined.

(** ** Rewriting the digits *)

Section Script.

Variable f : char -> char.
Hypothesis f_decimal :
  forall c, is_decimal c = true ->
            is_decimal (f c) = true /\ digit_value (f c) = digit_value c.

Lemma map_is_decimal s :
  forallb is_decimal s = true -> forallb is_decimal (map f s) = true.
Proof.
  induction s as [|c s IH]; intros F; [reflexivity|].
  cbn in F |- *. apply andb_true_iff in F as [Fc F].
  destruct (f_decimal c Fc) as [-> _]. now apply IH.
Qed.

Lemma map_digit_values s :
  forallb is_decimal s = true ->
  map digit_value (map f s) = map digit_value s.
Proof.
  induction s as [|c s IH]; intros F; [reflexivity|].
  cbn in F |- *. apply andb_true_iff in F as [Fc F].
  destruct (f_decimal c Fc) as [_ ->]. now rewrite IH.
Qed.

Lemma map_digits n s : digits n s -> digits n (map f s).
Proof.
  intros [L F]. split; [now rewrite length_map | now apply map_is_decimal].
Qed.

Lemma map_number_value s :
  forallb is_decimal s = true -> number_value (map f s) = number_value s.
Proof.
  unfold number_value. generalize 0%Z.
  induction s as [|c s IH]; intros acc F; [reflexivity|].
  cbn in F |- *. apply andb_true_iff in F as [Fc F].
  destruct (f_decimal c Fc) as [_ ->]. now apply IH.
Qed.

Lemma map_payload u q y :
  forallb is_decimal y = true ->
  payload (map f u) (map f q) (map f y) = map f (payload u q y).
Proof.
  intros F. unfold payload, abbreviated.
  rewrite length_map, map_number_value by assumption.
  rewrite !map_app.
  destruct ((length y =? 4)%nat && (number_value y <=? 1999)%Z)%bool;
    [now rewrite skipn_map | reflexivity].
Qed.

Lemma map_expected p :
  forallb is_decimal p = true ->
  expected_dv1 (map f p) = expected_dv1 p /\
  expected_dv2 (map f p) = expected_dv2 p.
Proof.
  intros F. unfold expected_dv2, expected_dv1.
  assert (Fr : forallb is_decimal (rev p) = true).
  { rewrite forallb_forall in *. intros x Hx. apply F. now apply in_rev. }
  now rewrite <- (map_rev f), (map_digit_values _ Fr).
Qed.

End Script.

(** X8. The verdict depends on the digits only through their decimal
    values: rewriting the digits of an identifier in the format with any map
    that keeps decimal digits decimal and their values unchanged (another
    script, for instance) does not change the result. *)
Theorem verdict_by_digit_values (f : char -> char) (u q y d : str) :
  (forall c, is_decimal c = true ->
             is_decimal (f c) = true /\ digit_value (f c) = digit_value c) ->
  digits 5 u -> digits 6 q -> digits 4 y \/ digits 2 y -> digits 2 d ->
  validate_nup (assemble (map f u) (map f q) (map f y) (map f d)) =
  validate_nup (assemble u q y d).
Proof.
  intros Hf Hu Hq Hy Hd. destruct (digits_two d Hd) as (d1 & d2 & ->).
  assert (Fy : forallb is_decimal y = true)
    by (destruct Hy as [[_ F]|[_ F]]; exact F).
  assert (Hy' : digits 4 (map f y) \/ digits 2 (map f y))
    by (destruct Hy; [left|right]; now apply map_digits).
  pose proof (map_digits f Hf _ _ Hd) as Hd'. cbn [map] in Hd' |- *.
  rewrite !validate_nup_exact by auto using map_digits.
  unfold verdict. rewrite map_payload by assumption.
  destruct (payload_digits u q y Hu Hq Hy) as [Fp _].
  destruct (map_expected f Hf _ Fp) as [-> ->].
  destruct Hd as [_ F]. cbn in F.
  apply andb_true_iff in F as [F1 F]. apply andb_true_iff in F as [F2 _].
  destruct (Hf d1 F1) as [_ ->], (Hf d2 F2) as [_ ->]. reflexivity.
Qed.

Lemma fullwidth_decimal c :
  is_decimal c = true ->
  let c' := if (48 <=? c) && (c <=? 57) then c + 65248 else c in
  is_decimal c' = true /\ digit_value c' = digit_value c.
Proof.
  intros H. cbv zeta.
  destruct (N.leb_spec 48 c), (N.leb_spec c 57); cbn [andb]; auto.
  assert (E : c = 48 \/ c = 49 \/ c = 50 \/ c = 51 \/ c = 52 \/
              c = 53 \/ c = 54 \/ c = 55 \/ c = 56 \/ c = 57) by lia.
  repeat (destruct E as [-> | E]; [split; reflexivity|]).
  subst c. split; reflexivity.
Qed.

Lemma verdict_by_digit_values_witness :
  validate_nup (fullwidth (lit "12345.678901/2023-94")) =
  validate_nup (lit "12345.678901/2023-94").
Proof.
  apply (verdict_by_digit_values
           (fun c => if (48 <=? c) && (c <=? 57) then c + 65248 else c)
           (lit "12345") (lit "678901") (lit "2023") (lit "94")).
  - exact fullwidth_decimal.
  - split; reflexivity.
  - split; reflexivity.
  - left. split; reflexivity.
  - split; reflexivity.
Defined.

(** ** The weight 11 *)

Lemma weighted_app w l1 l2 :
  weighted w (l1 ++ l2) =
  (weighted w l1 + weighted (w + Z.of_nat (length l1)) l2)%Z.
Proof.
  revert w. induction l1 as [|d l1 IH]; intros w.
  - cbn. now rewrite Z.add_0_r.
  - cbn [app weighted length]. rewrite IH.
    replace (w + 1 + Z.of_nat (length l1))%Z
      with (w + Z.of_nat (S (length l1)))%Z by lia.
    lia.
Qed.

Lemma dv_result_mod w w' :
  (w mod 11 = w' mod 11)%Z -> dv_result w = dv_result w'.
Proof. intros E. unfold dv_result. now rewrite E. Qed.

(** X9. The first check digit is blind to the tenth digit from the right
    of the payload: that digit meets the weight 11 of [range(2, 17)], so
    whatever it is, the rule of lines 95-105 gives the same [dv1_result]. *)
Theorem dv1_blind_to_tenth_digit (a b : str) (c c' : char) :
  forallb is_decimal a = true -> forallb is_decimal b = true ->
  is_decimal c = true -> is_decimal c' = true ->
  length b = 9%nat -> (length a <= 5)%nat ->
  exists w w',
    sum_products (combine (rev (a ++ c :: b)) weights_dv1) = Return w /\
    sum_products (combine (rev (a ++ c' :: b)) weights_dv1) = Return w' /\
    dv_result w = dv_result w'.
Proof.
  intros Fa Fb Fc Fc' Lb La.
  assert (S : forall x, is_decimal x = true ->
    sum_products (combine (rev (a ++ x :: b)) weights_dv1) =
    Return (weighted 2 (map digit_value (rev b)) + digit_value x * 11 +
            weighted 12 (map digit_value (rev a)))%Z).
  { intros x Fx. unfold sum_products, weights_dv1.
    rewrite sum_products_from_digits.
    - rewrite Z.add_0_l, dot_range.
      + rewrite rev_app_distr. cbn [rev]. rewrite <- !app_assoc. cbn [app].
        rewrite map_app, weighted_app. cbn [map weighted].
        rewrite length_map, length_rev, Lb. f_equal.
        change (Z.of_nat 2) with 2%Z. cbn [Z.of_nat Pos.of_succ_nat Pos.succ].
        change (2 + 9)%Z with 11%Z. change (11 + 1)%Z with 12%Z. lia.
      + rewrite length_map, length_rev, length_app. cbn [length].
        rewrite Lb. simpl. lia.
    - rewrite forallb_forall. intros z Hz. apply in_rev in Hz.
      apply in_app_or in Hz as [Hz|[<-|Hz]]; [|assumption|].
      + rewrite forallb_forall in Fa. now apply Fa.
      + rewrite forallb_forall in Fb. now apply Fb. }
  do 2 eexists. split; [now apply S|]. split; [now apply S|].
  apply dv_result_mod.
  rewrite <- !Z.add_assoc, (Z.add_comm (digit_value c * 11)),
    (Z.add_comm (digit_value c' * 11)), !Z.add_assoc, !Z.mod_add by lia.
  reflexivity.
Qed.

Lemma dv1_blind_to_tenth_digit_witness :
  exists w w',
    sum_products (combine (rev (lit "123456789012023")) weights_dv1)
      = Return w /\
    sum_products (combine (rev (lit "123450789012023")) weights_dv1)
      = Return w' /\
    dv_result w = dv_result w'.
Proof.
  apply (dv1_blind_to_tenth_digit (lit "12345") (lit "789012023")
           (N_of_ascii "6") (N_of_ascii "0"));
    reflexivity.
Defined.

(** ** Identifiers inside longer strings *)

Lemma cut_at_separator sep a b a' b' :
  contains sep a = false -> contains sep a' = false ->
  a ++ sep :: b = a' ++ sep :: b' -> a = a' /\ b = b'.
Proof.
  intros Ha Ha' E. pose proof (f_equal (split sep) E) as S.
  rewrite !split_app in S by assumption. injection S as -> _.
  apply app_inv_head in E. injection E as ->. auto.
Qed.

Lemma assemble_inj u q y d u' q' y' d' :
  contains PERIOD u = false -> contains PERIOD u' = false ->
  contains SLASH q = false -> contains SLASH q' = false ->
  contains HYPHEN y = false -> contains HYPHEN y' = false ->
  assemble u q y d = assemble u' q' y' d' ->
  u = u' /\ q = q' /\ y = y' /\ d = d'.
Proof.
  unfold assemble. intros Pu Pu' Sq Sq' Hy Hy' E.
  apply cut_at_separator in E as [-> E]; try assumption.
  apply cut_at_separator in E as [-> E]; try assumption.
  apply cut_at_separator in E as [-> E]; try assumption.
  auto.
Qed.

Lemma assemble_pad pre u q y d post :
  pre ++ assemble u q y d ++ post = assemble (pre ++ u) q y (d ++ post).
Proof.
  unfold assemble. repeat (rewrite <- app_assoc; cbn [app]). reflexivity.
Qed.

Lemma count_digits s sep :
  forallb is_decimal s = true -> is_decimal sep = false ->
  count_occ N.eq_dec s sep = 0%nat.
Proof.
  intros F Hs. apply count_occ_not_In. intros H.
  apply contains_In in H. rewrite digits_contains in H by assumption.
  discriminate H.
Qed.

Lemma count_absent s sep :
  count_occ N.eq_dec s sep = 0%nat -> contains sep s = false.
Proof.
  intros H. destruct (contains sep s) eqn:C; [|reflexivity].
  apply contains_In in C. now apply count_occ_not_In in H.
Qed.

(** An identifier in the format has one period, one slash and one hyphen. *)
Lemma count_separator u q y d sep :
  forallb is_decimal u = true -> forallb is_decimal q = true ->
  forallb is_decimal y = true -> forallb is_decimal d = true ->
  sep = PERIOD \/ sep = SLASH \/ sep = HYPHEN ->
  count_occ N.eq_dec (assemble u q y d) sep = 1%nat.
Proof.
  intros Fu Fq Fy Fd Hs.
  assert (Ds : is_decimal sep = false)
    by (destruct Hs as [->|[->| ->]]; reflexivity).
  unfold assemble.
  change (PERIOD :: q ++ SLASH :: y ++ HYPHEN :: d)
    with ([PERIOD] ++ q ++ [SLASH] ++ y ++ [HYPHEN] ++ d).
  rewrite !count_occ_app.
  rewrite (count_digits u), (count_digits q), (count_digits y),
    (count_digits d) by assumption.
  destruct Hs as [->|[->| ->]]; reflexivity.
Qed.

Lemma assemble_chars u q y d c :
  forallb is_decimal u = true -> forallb is_decimal q = true ->
  forallb is_decimal y = true -> forallb is_decimal d = true ->
  In c (assemble u q y d) ->
  is_decimal c = true \/ c = PERIOD \/ c = SLASH \/ c = HYPHEN.
Proof.
  intros Fu Fq Fy Fd. rewrite forallb_forall in Fu, Fq, Fy, Fd.
  unfold assemble. intros H.
  repeat (apply in_app_or in H as [H|[<-|H]]; auto).
Qed.

Lemma digits_forallb n s : digits n s -> forallb is_decimal s = true.
Proof. now intros [_ F]. Qed.

Lemma year_forallb y :
  digits 4 y \/ digits 2 y -> forallb is_decimal y = true.
Proof. intros [[_ F]|[_ F]]; exact F. Qed.

(** X10. The validator neither trims nor searches: a string it accepts,
    with anything added in front of it or after it, is rejected. *)
Theorem padded_rejected (pre s post : str) :
  validate_nup s = Return true -> pre ++ post <> [] ->
  validate_nup (pre ++ s ++ post) = Return false.
Proof.
  intros H Hp.
  assert (Hlen : length (pre ++ s ++ post) <> length s).
  { rewrite !length_app. intros E. apply Hp.
    destruct pre, post; cbn in E |- *; try lia. reflexivity. }
  destruct (validate_nup_run s)
    as [Es|? ?|? ? ? ? ? ?|u q y d1 d2 Es Hu Hq Hy Hd]; try discriminate H.
  - (* the sentinel *)
    subst s.
    destruct (validate_nup_run (pre ++ lit "S/N" ++ post))
      as [E|E M|u q y d1 d2 E Hu Hq Hy Hd|u q y d1 d2 E Hu Hq Hy Hd];
      try reflexivity.
    + rewrite E in Hlen. contradiction.
    + exfalso.
      assert (I : In 83 (assemble u q y [d1; d2])).
      { rewrite <- E. apply in_or_app. right. cbn. auto. }
      apply assemble_chars in I;
        eauto using digits_forallb, year_forallb.
      destruct I as [I|[I|[I|I]]]; discriminate I.
  - (* an identifier in the format *)
    subst s.
    destruct (validate_nup_run (pre ++ assemble u q y [d1; d2] ++ post))
      as [E|E M|u' q' y' d1' d2' E Hu' Hq' Hy' Hd'
         |u' q' y' d1' d2' E Hu' Hq' Hy' Hd'];
      try reflexivity.
    + exfalso. apply (f_equal (@length _)) in E.
      rewrite !length_app in E. unfold assemble in E.
      rewrite length_app in E. destruct Hu as [Lu _]. cbn in E. lia.
    + exfalso.
      pose proof (digits_forallb _ _ Hu) as Fu.
      pose proof (digits_forallb _ _ Hq) as Fq.
      pose proof (year_forallb _ Hy) as Fy.
      pose proof (digits_forallb _ _ Hd) as Fd.
      pose proof (digits_forallb _ _ Hu') as Fu'.
      pose proof (digits_forallb _ _ Hq') as Fq'.
      pose proof (year_forallb _ Hy') as Fy'.
      pose proof (digits_forallb _ _ Hd') as Fd'.
      assert (C : forall sep, sep = PERIOD \/ sep = SLASH \/ sep = HYPHEN ->
                  contains sep pre = false).
      { intros sep Hs. apply count_absent.
        pose proof (count_separator u q y _ sep Fu Fq Fy Fd Hs) as C1.
        pose proof (count_separator u' q' y' _ sep Fu' Fq' Fy' Fd' Hs) as C2.
        rewrite <- E in C2. rewrite 2 count_occ_app in C2.
        unfold char, str in *. rewrite C1 in C2. lia. }
      rewrite assemble_pad in E.
      apply assemble_inj in E as (Eu & _ & _ & Ed);
        auto using digits_contains.
      * apply Hp. apply (f_equal (@length _)) in Eu, Ed.
        rewrite length_app in Eu, Ed.
        destruct Hu as [Lu _], Hu' as [Lu' _]. cbn in Ed.
        destruct pre, post; cbn in Eu, Ed; try lia. reflexivity.
      * rewrite contains_app, C by auto. now apply digits_contains.
Qed.

Lemma padded_rejected_witness :
  validate_nup (lit " " ++ lit "12345.678901/2023-94" ++ lit " ")
    = Return false.
Proof.
  apply padded_rejected; [reflexivity | discriminate].
Defined.
